(** * The native launchers of angelos and logo

    The repository slice holds two C translation units, [angelos_main.c] and
    [logo_main.c].  Each defines [main], which registers an extension module
    in CPython's table of built-in modules, starts the interpreter, calls the
    application's [start] entry point and shuts the interpreter down.

    The development has two layers:
    - the token sequence of each file, as the C lexer sees it (comments and
      white space removed), used to compare the two files;
    - the behaviour of each [main] as a program over the calls it makes into
      code that lives outside the two files (the CPython runtime and the
      [*_entrypoint] module), run against an arbitrary model of that code.

    In both files the statement [start()] is followed by a comment and not by
    a semicolon.  The token layer keeps the files as they are written; the
    program layer reads [start()] as the expression statement that the line
    layout shows, a call whose result is dropped. *)

From Stdlib Require Import ZArith List String Bool Arith Lia.
Import ListNotations.

Local Open Scope string_scope.
Local Open Scope Z_scope.
Local Open Scope list_scope.

(** ** Tokens of a C translation unit *)

Inductive token : Type :=
| Include_sys (header : string)     (* #include <header> *)
| Include_loc (header : string)     (* #include "header" *)
| Kw (k : string)                   (* keyword *)
| Id (x : string)                   (* identifier *)
| Str (s : string)                  (* string literal *)
| Punct (p : string).               (* punctuator *)

Definition token_eqb (a b : token) : bool :=
  match a, b with
  | Include_sys x, Include_sys y => String.eqb x y
  | Include_loc x, Include_loc y => String.eqb x y
  | Kw x, Kw y => String.eqb x y
  | Id x, Id y => String.eqb x y
  | Str x, Str y => String.eqb x y
  | Punct x, Punct y => String.eqb x y
  | _, _ => false
  end.

(** Positions (counted from [i]) at which two token sequences carry
    different tokens, with the two tokens found there.  A sequence that is
    longer than the other differs from it at every surplus position; the
    surplus tokens are reported against [None]. *)
Fixpoint only_left (i : nat) (l : list token)
  : list (nat * option token * option token) :=
  match l with
  | [] => []
  | a :: l' => (i, Some a, None) :: only_left (S i) l'
  end.

Fixpoint only_right (i : nat) (l : list token)
  : list (nat * option token * option token) :=
  match l with
  | [] => []
  | b :: l' => (i, None, Some b) :: only_right (S i) l'
  end.

Fixpoint diff_from (i : nat) (l1 l2 : list token)
  : list (nat * option token * option token) :=
  match l1, l2 with
  | [], _ => only_right i l2
  | _, [] => only_left i l1
  | a :: l1', b :: l2' =>
      if token_eqb a b then diff_from (S i) l1' l2'
      else (i, Some a, Some b) :: diff_from (S i) l1' l2'
  end.

Definition diff : list token -> list token -> list (nat * option token * option token) :=
  diff_from 0.

(** The tokens after the first opening brace: the body of the only function
    of the file. *)
Fixpoint body (l : list token) : list token :=
  match l with
  | [] => []
  | Punct "{" :: rest => rest
  | _ :: rest => body rest
  end.

(** Names of the functions called in a token sequence, in order: every
    identifier directly followed by an opening parenthesis. *)
Fixpoint called (l : list token) : list string :=
  match l with
  | [] => []
  | Id f :: rest =>
      match rest with
      | Punct "(" :: _ => f :: called rest
      | _ => called rest
      end
  | _ :: rest => called rest
  end.

(** The pair handed to [PyImport_AppendInittab]: the module name (a string
    literal) and the identifier of the initialisation function. *)
Fixpoint registration (l : list token) : option (string * string) :=
  match l with
  | [] => None
  | Id "PyImport_AppendInittab" :: Punct "(" :: Str name :: Punct "," :: Id init :: Punct ")" :: _ =>
      Some (name, init)
  | _ :: rest => registration rest
  end.

(** CPython names the initialisation function of the extension module [m]
    [PyInit_m]; this is the initializer that belongs to a module name. *)
Definition own_initializer (module_name : string) : string :=
  ("PyInit_" ++ module_name)%string.

(** ** Programs over external calls *)

(** The functions the launchers call.  None of them is defined in the two
    files: three come from [Python.h], [start] from the included
    [*_entrypoint.h].  The index is the C result type: [int] for
    [PyImport_AppendInittab], [void] for [Py_Initialize] and [Py_Finalize].
    The declaration of [start] is in a header outside the slice, so its
    result type [start_t] is a parameter. *)
Inductive extcall (start_t : Type) : Type -> Type :=
| PyImport_AppendInittab (name : string) (initfunc : string) : extcall start_t Z
| Py_Initialize : extcall start_t unit
| start : extcall start_t start_t
| Py_Finalize : extcall start_t unit.

Arguments PyImport_AppendInittab {start_t} name initfunc.
Arguments Py_Initialize {start_t}.
Arguments start {start_t}.
Arguments Py_Finalize {start_t}.

(** A program either returns, or performs an external call and continues
    with the value the call returned. *)
Inductive prog (E : Type -> Type) (A : Type) : Type :=
| Ret (a : A)
| Vis (X : Type) (e : E X) (k : X -> prog E A).

Arguments Ret {E A} a.
Arguments Vis {E A X} e k.

Fixpoint bind {E A B} (p : prog E A) (f : A -> prog E B) : prog E B :=
  match p with
  | Ret a => f a
  | Vis e k => Vis e (fun x => bind (k x) f)
  end.

Definition call {E X} (e : E X) : prog E X := Vis e Ret.

Declare Scope prog_scope.
Delimit Scope prog_scope with prog.
(** [c ;; p]: the expression statement [c;] followed by [p]; the value of
    [c] is dropped, as C does. *)
Notation "c ;; p" := (bind c (fun _ => p))
  (at level 61, right associativity) : prog_scope.

(** ** The two translation units *)

Module angelos_main.

Definition tokens : list token :=
  [ Include_sys "Python.h";
    Include_loc "angelos_entrypoint.h";
    Kw "int"; Id "main"; Punct "(";
      Kw "int"; Id "argc"; Punct ",";
      Kw "char"; Punct "*"; Id "argv"; Punct "["; Punct "]";
    Punct ")"; Punct "{";
    Id "PyImport_AppendInittab"; Punct "(";
      Str "angelos"; Punct ","; Id "PyInit_angelos";
    Punct ")"; Punct ";";
    Id "Py_Initialize"; Punct "("; Punct ")"; Punct ";";
    Id "start"; Punct "("; Punct ")";
    Id "Py_Finalize"; Punct "("; Punct ")"; Punct ";";
    Punct "}" ].

(** [main] has no [return]; control reaching the closing brace of [main]
    returns 0. *)
Definition main {start_t : Type} (argc : Z) (argv : list string)
  : prog (extcall start_t) Z :=
  (call (PyImport_AppendInittab "angelos" "PyInit_angelos") ;;
   call Py_Initialize ;;
   call start ;;
   call Py_Finalize ;;
   Ret 0)%prog.

End angelos_main.

Module logo_main.

Definition tokens : list token :=
  [ Include_sys "Python.h";
    Include_loc "logo_entrypoint.h";
    Kw "int"; Id "main"; Punct "(";
      Kw "int"; Id "argc"; Punct ",";
      Kw "char"; Punct "*"; Id "argv"; Punct "["; Punct "]";
    Punct ")"; Punct "{";
    Id "PyImport_AppendInittab"; Punct "(";
      Str "logo"; Punct ","; Id "PyInit_angelos";
    Punct ")"; Punct ";";
    Id "Py_Initialize"; Punct "("; Punct ")"; Punct ";";
    Id "start"; Punct "("; Punct ")";
    Id "Py_Finalize"; Punct "("; Punct ")"; Punct ";";
    Punct "}" ].

Definition main {start_t : Type} (argc : Z) (argv : list string)
  : prog (extcall start_t) Z :=
  (call (PyImport_AppendInittab "logo" "PyInit_angelos") ;;
   call Py_Initialize ;;
   call start ;;
   call Py_Finalize ;;
   Ret 0)%prog.

End logo_main.

(** The two executables. *)
Inductive variant : Type := angelos | logo.

Definition tokens_of (v : variant) : list token :=
  match v with
  | angelos => angelos_main.tokens
  | logo => logo_main.tokens
  end.

Definition main_of {start_t : Type} (v : variant)
  : Z -> list string -> prog (extcall start_t) Z :=
  match v with
  | angelos => angelos_main.main
  | logo => logo_main.main
  end.

(** ** Running a launcher against the external code *)

(** What an external call does: it returns a value to the launcher, or the
    process ends inside the callee and control never comes back
    ([Py_Initialize] treats a failed start-up as a fatal error; any callee
    may call [exit] or [abort]). *)
Inductive outcome (X : Type) : Type :=
| Returned (x : X)
| NoReturn.

Arguments Returned {X} x.
Arguments NoReturn {X}.

(** One external call of an execution, with what became of it. *)
Inductive event (start_t : Type) : Type :=
| EvAppendInittab (name : string) (initfunc : string) (o : outcome Z)
| EvInitialize (o : outcome unit)
| EvStart (o : outcome start_t)
| EvFinalize (o : outcome unit).

Arguments EvAppendInittab {start_t} name initfunc o.
Arguments EvInitialize {start_t} o.
Arguments EvStart {start_t} o.
Arguments EvFinalize {start_t} o.

Definition record {start_t X} (e : extcall start_t X)
  : outcome X -> event start_t :=
  match e with
  | PyImport_AppendInittab name initfunc => EvAppendInittab name initfunc
  | Py_Initialize => EvInitialize
  | start => EvStart
  | Py_Finalize => EvFinalize
  end.

(** A model of the external code: the outcome of a call, given the calls
    made so far. *)
Definition runtime (start_t : Type) : Type :=
  forall X : Type, list (event start_t) -> extcall start_t X -> outcome X.

(** An execution: the calls made, oldest first, and the exit status [main]
    handed back, [None] when the process ended inside a callee (the status is
    then the callee's business). *)
Record execution (start_t : Type) : Type := mkExecution {
  trace : list (event start_t);
  exit_status : option Z
}.

Arguments mkExecution {start_t} trace exit_status.
Arguments trace {start_t} e.
Arguments exit_status {start_t} e.

Fixpoint exec {start_t : Type} (rt : runtime start_t)
  (p : prog (extcall start_t) Z) (past : list (event start_t))
  : execution start_t :=
  match p with
  | Ret status => mkExecution past (Some status)
  | Vis e k =>
      match rt _ past e with
      | Returned x => exec rt (k x) (past ++ [record e (Returned x)])
      | NoReturn => mkExecution (past ++ [record e NoReturn]) None
      end
  end.

(** The execution of a program started as the process's [main]. *)
Definition run {start_t : Type} (rt : runtime start_t)
  (p : prog (extcall start_t) Z) : execution start_t :=
  exec rt p [].

(** ** Observing a trace *)

(** The call of an event, without its outcome. *)
Inductive op : Type :=
| OpAppendInittab (name : string) (initfunc : string)
| OpInitialize
| OpStart
| OpFinalize.

Definition op_eq_dec (a b : op) : {a = b} + {a <> b}.
Proof. decide equality; apply string_dec. Defined.

Definition op_of {start_t} (ev : event start_t) : op :=
  match ev with
  | EvAppendInittab name initfunc _ => OpAppendInittab name initfunc
  | EvInitialize _ => OpInitialize
  | EvStart _ => OpStart
  | EvFinalize _ => OpFinalize
  end.

Definition ops {start_t} (t : list (event start_t)) : list op :=
  map op_of t.

(** The C name of the function an event calls. *)
Definition op_name (o : op) : string :=
  match o with
  | OpAppendInittab _ _ => "PyImport_AppendInittab"
  | OpInitialize => "Py_Initialize"
  | OpStart => "start"
  | OpFinalize => "Py_Finalize"
  end.

Definition is_registration (o : op) : bool :=
  match o with
  | OpAppendInittab _ _ => true
  | _ => false
  end.

(** Number of calls of [o] in a trace. *)
Definition calls_of {start_t} (o : op) (t : list (event start_t)) : nat :=
  count_occ op_eq_dec (ops t) o.

(** The events that follow the first call of [start]. *)
Fixpoint after_start {start_t} (t : list (event start_t)) : list (event start_t) :=
  match t with
  | [] => []
  | EvStart _ :: rest => rest
  | _ :: rest => after_start rest
  end.

(** A model of the external code with one fixed outcome per function. *)
Definition behaviour {start_t : Type}
  (reg : outcome Z) (init : outcome unit)
  (st : outcome start_t) (fin : outcome unit) : runtime start_t :=
  fun X _ e =>
    match e in extcall _ X return outcome X with
    | PyImport_AppendInittab _ _ => reg
    | Py_Initialize => init
    | start => st
    | Py_Finalize => fin
    end.

(** Every call returns; registration and [start] report success as C does,
    with 0. *)
Definition nominal : runtime Z :=
  behaviour (Returned 0) (Returned tt) (Returned 0) (Returned tt).

(** The application reports a failure: [start] returns -1. *)
Definition failing_start : runtime Z :=
  behaviour (Returned 0) (Returned tt) (Returned (-1)) (Returned tt).

(** The table of built-in modules cannot be extended:
    [PyImport_AppendInittab] returns -1. *)
Definition failing_registration : runtime Z :=
  behaviour (Returned (-1)) (Returned tt) (Returned 0) (Returned tt).

(** The interpreter cannot be started: [Py_Initialize] ends the process. *)
Definition fatal_initialize : runtime Z :=
  behaviour (Returned 0) NoReturn (Returned 0) (Returned tt).

(** ** The launcher the two files instantiate *)

(** The specification describes one generic launcher, parameterised by the
    module name and its initializer: register, initialise, start, finalise,
    status 0. *)
Definition launcher {start_t : Type} (module_name initfunc : string)
  : prog (extcall start_t) Z :=
  (call (PyImport_AppendInittab module_name initfunc) ;;
   call Py_Initialize ;;
   call start ;;
   call Py_Finalize ;;
   Ret 0)%prog.

Definition module_name (v : variant) : string :=
  match v with
  | angelos => "angelos"
  | logo => "logo"
  end.

(** The executions a launcher can have: the calls are made in program order
    until one of them does not return; when all four return, [main] returns
    0. *)
Inductive launcher_run {start_t : Type} (name initfunc : string)
  : execution start_t -> Prop :=
| run_ends_in_registration :
    launcher_run name initfunc
      (mkExecution [EvAppendInittab name initfunc NoReturn] None)
| run_ends_in_initialize r :
    launcher_run name initfunc
      (mkExecution [EvAppendInittab name initfunc (Returned r);
                    EvInitialize NoReturn] None)
| run_ends_in_start r :
    launcher_run name initfunc
      (mkExecution [EvAppendInittab name initfunc (Returned r);
                    EvInitialize (Returned tt);
                    EvStart NoReturn] None)
| run_ends_in_finalize r s :
    launcher_run name initfunc
      (mkExecution [EvAppendInittab name initfunc (Returned r);
                    EvInitialize (Returned tt);
                    EvStart (Returned s);
                    EvFinalize NoReturn] None)
| run_returns r s :
    launcher_run name initfunc
      (mkExecution [EvAppendInittab name initfunc (Returned r);
                    EvInitialize (Returned tt);
                    EvStart (Returned s);
                    EvFinalize (Returned tt)] (Some 0)).

(** ** Further observations on tokens and outcomes *)

(** The tokens that follow the parenthesis closing an argument list, read
    from just after its opening parenthesis; [depth] counts the parentheses
    opened inside the list and not yet closed. *)
Fixpoint after_arguments (depth : nat) (l : list token) : list token :=
  match l with
  | [] => []
  | Punct "(" :: rest => after_arguments (S depth) rest
  | Punct ")" :: rest =>
      match depth with
      | O => rest
      | S d => after_arguments d rest
      end
  | _ :: rest => after_arguments depth rest
  end.

(** The calls that stand where a statement stands (outside every
    parenthesis) and whose argument list is not directly followed by a
    semicolon, in order. *)
Fixpoint unterminated_from (depth : nat) (l : list token) : list string :=
  match l with
  | [] => []
  | Id f :: rest =>
      match rest with
      | Punct "(" :: args =>
          match depth, after_arguments 0 args with
          | O, Punct ";" :: _ => unterminated_from depth rest
          | O, _ => f :: unterminated_from depth rest
          | S _, _ => unterminated_from depth rest
          end
      | _ => unterminated_from depth rest
      end
  | Punct "(" :: rest => unterminated_from (S depth) rest
  | Punct ")" :: rest => unterminated_from (pred depth) rest
  | _ :: rest => unterminated_from depth rest
  end.

Definition unterminated : list token -> list string := unterminated_from 0.

(** Whether the identifier [x] occurs in a token sequence. *)
Definition mentions (x : string) (l : list token) : bool :=
  existsb (token_eqb (Id x)) l.

Definition is_keyword (t : token) : bool :=
  match t with
  | Kw _ => true
  | _ => false
  end.

(** Whether a call came back to the launcher. *)
Definition returns {X : Type} (o : outcome X) : bool :=
  match o with
  | Returned _ => true
  | NoReturn => false
  end.

(** The statements of [main], as calls, in program order. *)
Definition program_order (v : variant) : list op :=
  [ OpAppendInittab (module_name v) "PyInit_angelos";
    OpInitialize; OpStart; OpFinalize ].

(** ** Threads *)

(** The threads of the process: the one the C runtime starts [main] on, and
    whatever threads the process may get besides. *)
Inductive thread : Type :=
| main_thread
| other_thread (id : nat).

(** Execution with the calling thread written on every event.  A C function
    call runs on the thread of its caller, and a program of [prog] has no
    statement that starts a thread: the call [e] of a program running on
    [th] is made on [th], and the program goes on, on [th], when the call
    has returned.  The external code is asked with the events made so far,
    as in [exec]. *)
Fixpoint exec_on {start_t : Type} (th : thread) (rt : runtime start_t)
  (p : prog (extcall start_t) Z) (past : list (thread * event start_t))
  : list (thread * event start_t) * option Z :=
  match p with
  | Ret status => (past, Some status)
  | Vis e k =>
      match rt _ (map snd past) e with
      | Returned x => exec_on th rt (k x) (past ++ [(th, record e (Returned x))])
      | NoReturn => (past ++ [(th, record e NoReturn)], None)
      end
  end.

(** The process: [main] is started on the main thread. *)
Definition run_process {start_t : Type} (rt : runtime start_t)
  (p : prog (extcall start_t) Z) : list (thread * event start_t) * option Z :=
  exec_on main_thread rt p [].

(** * Properties *)

(** ** The token layer *)

Lemma token_eqb_eq (a b : token) : token_eqb a b = true <-> a = b.
Proof.
  destruct a, b; simpl; try (split; [discriminate | intros H; inversion H]);
    rewrite String.eqb_eq; split; intros H; try (subst; reflexivity);
    inversion H; reflexivity.
Qed.

(** Two token sequences without a difference are the same sequence. *)
Lemma diff_from_nil (l1 l2 : list token) :
  forall i, diff_from i l1 l2 = [] -> l1 = l2.
Proof.
  revert l2; induction l1 as [|a l1 IH]; intros [|b l2] i H; simpl in H;
    try reflexivity; try discriminate.
  destruct (token_eqb a b) eqn:E; [|discriminate].
  apply token_eqb_eq in E; subst b.
  f_equal; eapply IH; eassumption.
Qed.

(** The program of each file performs the calls the tokens of its body
    spell, in the same order, and registers the pair the tokens give. *)
Lemma main_follows_tokens (v : variant) (argc : Z) (argv : list string) :
  let t := ops (trace (run nominal (main_of v argc argv))) in
  map op_name t = called (body (tokens_of v)) /\
  (exists name initfunc,
      registration (tokens_of v) = Some (name, initfunc) /\
      hd_error t = Some (OpAppendInittab name initfunc)).
Proof.
  destruct v; simpl; (split; [reflexivity | do 2 eexists; split; reflexivity]).
Qed.

(** ** The program layer *)

Section Executions.

Context {start_t : Type}.
Implicit Types (rt : runtime start_t) (v : variant) (argc : Z)
  (argv : list string).

Lemma launcher_runs rt name initfunc :
  launcher_run name initfunc (run rt (launcher name initfunc)).
Proof.
  unfold run, launcher; simpl.
  destruct (rt _ _ (PyImport_AppendInittab name initfunc)) as [r|]; simpl;
    [|constructor].
  destruct (rt _ _ Py_Initialize) as [[]|]; simpl; [|constructor].
  destruct (rt _ _ start) as [s|]; simpl; [|constructor].
  destruct (rt _ _ Py_Finalize) as [[]|]; simpl; constructor.
Qed.

(** Both files instantiate the generic launcher; the initializer is
    [PyInit_angelos] in both. *)
Lemma main_is_launcher v argc argv :
  @main_of start_t v argc argv
  = launcher (module_name v) "PyInit_angelos".
Proof. destruct v; reflexivity. Qed.

Lemma main_runs rt v argc argv :
  launcher_run (module_name v) "PyInit_angelos"
    (run rt (main_of v argc argv)).
Proof. rewrite main_is_launcher; apply launcher_runs. Qed.

(** Leaving the threads out of an execution of [exec_on] gives the execution
    of [exec]. *)
Lemma exec_on_forgets_to_exec (th : thread) rt (p : prog (extcall start_t) Z) :
  forall past,
    map snd (fst (exec_on th rt p past)) = trace (exec rt p (map snd past)) /\
    snd (exec_on th rt p past) = exit_status (exec rt p (map snd past)).
Proof.
  induction p as [status | X e k IH]; intros past; simpl.
  - split; reflexivity.
  - destruct (rt X (map snd past) e) as [x|]; simpl.
    + specialize (IH x (past ++ [(th, record e (Returned x))])).
      rewrite map_app in IH; exact IH.
    + rewrite map_app; split; reflexivity.
Qed.

Lemma run_process_forgets_to_run rt (p : prog (extcall start_t) Z) :
  map snd (fst (run_process rt p)) = trace (run rt p) /\
  snd (run_process rt p) = exit_status (run rt p).
Proof. exact (exec_on_forgets_to_exec main_thread rt p []). Qed.

(** A program makes all its calls on the thread it runs on. *)
Lemma exec_on_stays_on_thread (th : thread) rt (p : prog (extcall start_t) Z) :
  forall past,
    Forall (fun le => fst le = th) past ->
    Forall (fun le => fst le = th) (fst (exec_on th rt p past)).
Proof.
  induction p as [status | X e k IH]; intros past Hpast; simpl.
  - exact Hpast.
  - destruct (rt X (map snd past) e) as [x|]; simpl.
    + apply IH, Forall_app; split; [exact Hpast | repeat constructor].
    + apply Forall_app; split; [exact Hpast | repeat constructor].
Qed.

Lemma run_process_on_main_thread rt (p : prog (extcall start_t) Z)
    (th : thread) (ev : event start_t) :
  In (th, ev) (fst (run_process rt p)) -> th = main_thread.
Proof.
  intros H.
  pose proof (exec_on_stays_on_thread main_thread rt p [] (Forall_nil _)) as F.
  rewrite Forall_forall in F.
  exact (F (th, ev) H).
Qed.


(** Case analysis on the execution of a launcher. *)
Ltac run_cases rt v argc argv :=
  let R := fresh "R" in
  let x := fresh "x" in
  let E := fresh "E" in
  pose proof (main_runs rt v argc argv) as R;
  remember (run rt (main_of v argc argv)) as x eqn:E; clear E;
  destruct R; simpl in *.

(** Splits [H : l = a ++ y :: b] for a concrete [l] into one case per
    position of [y] in [l]. *)
Ltac split_at H a :=
  destruct a as [|? a]; simpl in H;
  [ try discriminate H
  | first [ discriminate H | injection H as ? H; subst; split_at H a ] ].

(** C3: in every execution of either launcher the first call is the
    registration and no later call is one; hence wherever the
    interpreter-initialization call stands in the trace, a registration
    stands before it and none after it. *)
Theorem registration_precedes_initialization rt v argc argv :
  (exists name initfunc rest,
      ops (trace (run rt (main_of v argc argv)))
      = OpAppendInittab name initfunc :: rest /\
      existsb is_registration rest = false) /\
  (forall pre post,
      ops (trace (run rt (main_of v argc argv))) = pre ++ OpInitialize :: post ->
      existsb is_registration pre = true /\
      existsb is_registration post = false).
Proof.
  split.
  - run_cases rt v argc argv; do 3 eexists; split; reflexivity.
  - intros pre post H.
    run_cases rt v argc argv; split_at H pre;
      injection H as <-; split; reflexivity.
Qed.

(** C4: in an execution in which [start] returns (with whatever value, a
    successful one included), the launcher calls the finalization exactly
    once and that call comes after the call of [start]; and in no
    execution does a finalization call come before the initialization
    call. *)
Theorem finalization_once_after_start rt v argc argv :
  (forall r,
      In (EvStart (Returned r)) (trace (run rt (main_of v argc argv))) ->
      calls_of OpFinalize (trace (run rt (main_of v argc argv))) = 1%nat /\
      forall pre post,
        ops (trace (run rt (main_of v argc argv))) = pre ++ OpFinalize :: post ->
        In OpStart pre) /\
  (forall pre post,
      ops (trace (run rt (main_of v argc argv))) = pre ++ OpFinalize :: post ->
      In OpInitialize pre).
Proof.
  split.
  - intros r H.
    run_cases rt v argc argv;
      repeat (destruct H as [H|H]; try discriminate H); try contradiction;
      (split; [reflexivity|]);
      intros pre post D; split_at D pre; simpl; auto.
  - intros pre post D.
    run_cases rt v argc argv; split_at D pre; simpl; auto.
Qed.

(** C5: when [start] returns and the finalization returns, the angelos
    launcher has registered the module "angelos" and the logo launcher the
    module "logo", and each has then initialised the interpreter, called
    [start] once, finalised, in this order and with no other call, and
    the exit status is 0. *)
Theorem normal_run rt v argc argv r :
  In (EvStart (Returned r)) (trace (run rt (main_of v argc argv))) ->
  In (EvFinalize (Returned tt)) (trace (run rt (main_of v argc argv))) ->
  ops (trace (run rt (main_of v argc argv)))
  = [ OpAppendInittab
        match v with angelos => "angelos" | logo => "logo" end
        "PyInit_angelos";
      OpInitialize; OpStart; OpFinalize ] /\
  calls_of OpStart (trace (run rt (main_of v argc argv))) = 1%nat /\
  exit_status (run rt (main_of v argc argv)) = Some 0.
Proof.
  intros Hs Hf.
  run_cases rt v argc argv;
    repeat (destruct Hf as [Hf|Hf]; try discriminate Hf); try contradiction.
  destruct v; repeat split; reflexivity.
Qed.

(** C2, amended: when [start] returns, with a failure value or any
    other, the launcher still calls the finalization, once and after
    [start]; the exit status does not tell the failure: [main] never
    returns anything but 0, and it returns 0 as soon as the finalization
    returns. *)
Theorem failed_start_is_finalized_and_exits_zero rt v argc argv r :
  In (EvStart (Returned r)) (trace (run rt (main_of v argc argv))) ->
  (exists fin,
      after_start (trace (run rt (main_of v argc argv))) = [EvFinalize fin]) /\
  calls_of OpFinalize (trace (run rt (main_of v argc argv))) = 1%nat /\
  (forall status,
      exit_status (run rt (main_of v argc argv)) = Some status -> status = 0) /\
  (In (EvFinalize (Returned tt)) (trace (run rt (main_of v argc argv))) ->
   exit_status (run rt (main_of v argc argv)) = Some 0).
Proof.
  intros H.
  run_cases rt v argc argv;
    repeat (destruct H as [H|H]; try discriminate H); try contradiction;
    (split; [eexists; reflexivity|]);
    (split; [reflexivity|]);
    (split; [intros status Hs; congruence|]).
  - intros Hf;
      repeat (destruct Hf as [Hf|Hf]; try discriminate Hf); contradiction.
  - reflexivity.
Qed.

(** C6, amended: when the registration returns, with the failure value -1
    or any other, the launcher does not stop: the value is dropped and the
    next call is the interpreter initialization. *)
Theorem initialization_follows_registration rt v argc argv name initfunc r :
  In (EvAppendInittab name initfunc (Returned r))
     (trace (run rt (main_of v argc argv))) ->
  exists rest,
    ops (trace (run rt (main_of v argc argv)))
    = OpAppendInittab name initfunc :: OpInitialize :: rest.
Proof.
  intros H.
  run_cases rt v argc argv;
    repeat (destruct H as [H|H]; try discriminate H); try contradiction;
    injection H as <- <- <-; eexists; reflexivity.
Qed.

(** C7, amended: in every execution of either launcher in which the
    interpreter initialization returns, [start] is invoked exactly once,
    after the initialization call; synchronously: when [start] does not
    return nothing follows it, neither a call nor an exit status, so that
    whatever [main] does after the call it does once [start] has returned;
    and on the main thread: the call of [start], like every call of the
    execution, carries the thread [main] was started on. *)
Theorem start_once_synchronously_on_main_thread rt v argc argv :
  In (EvInitialize (Returned tt)) (trace (run rt (main_of v argc argv))) ->
  calls_of OpStart (trace (run rt (main_of v argc argv))) = 1%nat /\
  (forall pre post,
      ops (trace (run rt (main_of v argc argv))) = pre ++ OpStart :: post ->
      In OpInitialize pre) /\
  (In (EvStart NoReturn) (trace (run rt (main_of v argc argv))) ->
   after_start (trace (run rt (main_of v argc argv))) = [] /\
   exit_status (run rt (main_of v argc argv)) = None) /\
  (after_start (trace (run rt (main_of v argc argv))) <> [] \/
   exit_status (run rt (main_of v argc argv)) <> None ->
   exists r, In (EvStart (Returned r)) (trace (run rt (main_of v argc argv)))) /\
  map snd (fst (run_process rt (main_of v argc argv)))
  = trace (run rt (main_of v argc argv)) /\
  (exists o, In (main_thread, EvStart o)
                (fst (run_process rt (main_of v argc argv)))) /\
  (forall th o,
      In (th, EvStart o) (fst (run_process rt (main_of v argc argv))) ->
      th = main_thread).
Proof.
  intros H.
  assert (Hs : exists o, In (EvStart o) (trace (run rt (main_of v argc argv)))).
  { run_cases rt v argc argv;
      repeat (destruct H as [H|H]; try discriminate H); try contradiction;
      eexists; simpl; eauto 6. }
  destruct (run_process_forgets_to_run rt (main_of v argc argv)) as [Hp _].
  assert (Hm : exists o, In (main_thread, EvStart o)
                            (fst (run_process rt (main_of v argc argv)))).
  { destruct Hs as [o Ho]. exists o.
    rewrite <- Hp in Ho. apply in_map_iff in Ho.
    destruct Ho as ([th ev] & Hev & Hin); simpl in Hev; subst ev.
    rewrite <- (run_process_on_main_thread _ _ _ _ Hin); exact Hin. }
  assert (Ht : forall th o,
             In (th, EvStart o) (fst (run_process rt (main_of v argc argv))) ->
             th = main_thread)
    by (intros th o; apply run_process_on_main_thread).
  clear Hs.
  generalize dependent (fst (run_process rt (main_of v argc argv))).
  intros located Hp Hm Ht.
  run_cases rt v argc argv;
    repeat (destruct H as [H|H]; try discriminate H); try contradiction;
    (split; [reflexivity|]);
    (split; [intros pre post D; split_at D pre; simpl; auto|]);
    (split; [intros N;
             repeat (destruct N as [N|N]; try discriminate N);
             try contradiction; split; reflexivity|]);
    (split; [intros [N|N]; try (exfalso; apply N; reflexivity); eauto 8|]);
    auto.
Qed.

(** C8: no execution of either launcher holds more than one
    interpreter-initialization call, so a second initialization, with or
    without a finalization in between, is never attempted. *)
Theorem initialization_at_most_once rt v argc argv :
  (calls_of OpInitialize (trace (run rt (main_of v argc argv))) <= 1)%nat.
Proof.
  run_cases rt v argc argv; unfold calls_of; simpl; lia.
Qed.

(** C9: [main] does not look at [argc] or [argv]: against the same
    external code, two invocations that differ in the process arguments
    only are the same program, make the same calls with the same outcomes
    and hand back the same exit status. *)
Theorem arguments_are_ignored rt v argc argv argc' argv' :
  @main_of start_t v argc argv = main_of v argc' argv' /\
  trace (run rt (main_of v argc argv)) = trace (run rt (main_of v argc' argv')) /\
  exit_status (run rt (main_of v argc argv))
  = exit_status (run rt (main_of v argc' argv')).
Proof.
  destruct v; repeat split; reflexivity.
Qed.

(** C10: what the launcher does after [start] has returned does not
    depend on the value returned.  For two executions in which [start]
    returns [r1] and [r2], the calls after [start] are in both the one
    finalization call; when the finalization has the same outcome in both
    the exit statuses are equal; and on the paths on which [main] returns
    the status is 0. *)
Theorem start_result_is_discarded rt1 rt2 v argc argv r1 r2 :
  In (EvStart (Returned r1)) (trace (run rt1 (main_of v argc argv))) ->
  In (EvStart (Returned r2)) (trace (run rt2 (main_of v argc argv))) ->
  ops (after_start (trace (run rt1 (main_of v argc argv)))) = [OpFinalize] /\
  ops (after_start (trace (run rt2 (main_of v argc argv)))) = [OpFinalize] /\
  (after_start (trace (run rt1 (main_of v argc argv)))
   = after_start (trace (run rt2 (main_of v argc argv))) ->
   exit_status (run rt1 (main_of v argc argv))
   = exit_status (run rt2 (main_of v argc argv))) /\
  (forall status,
      exit_status (run rt1 (main_of v argc argv)) = Some status \/
      exit_status (run rt2 (main_of v argc argv)) = Some status ->
      status = 0).
Proof.
  intros H1 H2.
  run_cases rt1 v argc argv;
    repeat (destruct H1 as [H1|H1]; try discriminate H1); try contradiction;
    run_cases rt2 v argc argv;
    repeat (destruct H2 as [H2|H2]; try discriminate H2); try contradiction;
    repeat split; try reflexivity; try discriminate;
    intros status [Hs|Hs]; congruence.
Qed.

(** ** The shape of every execution *)

(** X1: [main] hands back a status exactly when the finalization has
    returned, and the status is then 0; in every other execution the process
    has ended inside a callee. *)
Theorem main_returns_iff_finalization_returned rt v argc argv :
  (exit_status (run rt (main_of v argc argv)) = Some 0 <->
   In (EvFinalize (Returned tt)) (trace (run rt (main_of v argc argv)))) /\
  (exit_status (run rt (main_of v argc argv)) = None <->
   ~ In (EvFinalize (Returned tt)) (trace (run rt (main_of v argc argv)))).
Proof.
  run_cases rt v argc argv; (split; split); intros H;
    try reflexivity; try discriminate H;
    try (repeat (destruct H as [H|H]; try discriminate H); contradiction);
    try (intros N;
         repeat (destruct N as [N|N]; try discriminate N); contradiction).
  - auto 6.
  - exfalso; apply H; auto 6.
Qed.

(** X2: a call is made exactly when the call before it in [main] has
    returned: the initialization when the registration has, [start] when
    the initialization has, the finalization when [start] has. *)
Theorem call_made_iff_previous_returned rt v argc argv :
  (In OpInitialize (ops (trace (run rt (main_of v argc argv)))) <->
   exists name initfunc r,
     In (EvAppendInittab name initfunc (Returned r))
        (trace (run rt (main_of v argc argv)))) /\
  (In OpStart (ops (trace (run rt (main_of v argc argv)))) <->
   In (EvInitialize (Returned tt)) (trace (run rt (main_of v argc argv)))) /\
  (In OpFinalize (ops (trace (run rt (main_of v argc argv)))) <->
   exists r, In (EvStart (Returned r)) (trace (run rt (main_of v argc argv)))).
Proof.
  run_cases rt v argc argv; repeat split; intros H;
    try (destruct H as (name & i & r' & H));
    try (destruct H as (r' & H));
    try (repeat (destruct H as [H|H]; try discriminate H); contradiction);
    eauto 8.
Qed.

(** X3: the calls of every execution are a non-empty initial part of the
    four statements of [main], in program order, the registration carrying
    the module name of the variant; no function is called twice. *)
Theorem calls_follow_program_order rt v argc argv :
  (exists n,
      (1 <= n <= 4)%nat /\
      ops (trace (run rt (main_of v argc argv))) = firstn n (program_order v)) /\
  NoDup (ops (trace (run rt (main_of v argc argv)))).
Proof.
  run_cases rt v argc argv; unfold program_order; split;
    try (repeat constructor; simpl; intuition discriminate).
  - exists 1%nat; split; [lia | reflexivity].
  - exists 2%nat; split; [lia | reflexivity].
  - exists 3%nat; split; [lia | reflexivity].
  - exists 4%nat; split; [lia | reflexivity].
  - exists 4%nat; split; [lia | reflexivity].
Qed.

(** X4: the values the callees return do not steer the launcher.  Against
    two models of the external code with one fixed outcome per function, in
    which the same calls come back, whatever the values, the launcher makes
    the same calls and hands back the same status. *)
Theorem returned_values_do_not_steer v argc argv
    (reg reg' : outcome Z) (init init' : outcome unit)
    (st st' : outcome start_t) (fin fin' : outcome unit) :
  returns reg = returns reg' ->
  returns init = returns init' ->
  returns st = returns st' ->
  returns fin = returns fin' ->
  ops (trace (run (behaviour reg init st fin) (main_of v argc argv)))
  = ops (trace (run (behaviour reg' init' st' fin') (main_of v argc argv))) /\
  exit_status (run (behaviour reg init st fin) (main_of v argc argv))
  = exit_status (run (behaviour reg' init' st' fin') (main_of v argc argv)).
Proof.
  intros Hr Hi Hs Hf.
  destruct v;
    destruct reg, reg'; try discriminate Hr;
    destruct init as [[]|], init' as [[]|]; try discriminate Hi;
    destruct st, st'; try discriminate Hs;
    destruct fin as [[]|], fin' as [[]|]; try discriminate Hf;
    split; reflexivity.
Qed.

(** X5: the two launchers behave alike.  Against the same model of the
    external code with one fixed outcome per function, their executions
    differ in the module name of the registration event and in nothing
    else: same initializer, same outcome of the registration, same later
    events, same status. *)
Theorem launchers_differ_in_module_name_only argc argv argc' argv'
    (reg : outcome Z) (init : outcome unit)
    (st : outcome start_t) (fin : outcome unit) :
  hd_error (trace (run (behaviour reg init st fin) (angelos_main.main argc argv)))
  = Some (EvAppendInittab "angelos" "PyInit_angelos" reg) /\
  hd_error (trace (run (behaviour reg init st fin) (logo_main.main argc' argv')))
  = Some (EvAppendInittab "logo" "PyInit_angelos" reg) /\
  tl (trace (run (behaviour reg init st fin) (angelos_main.main argc argv)))
  = tl (trace (run (behaviour reg init st fin) (logo_main.main argc' argv'))) /\
  exit_status (run (behaviour reg init st fin) (angelos_main.main argc argv))
  = exit_status (run (behaviour reg init st fin) (logo_main.main argc' argv')).
Proof.
  destruct reg, init as [[]|], st, fin as [[]|]; repeat split; reflexivity.
Qed.

End Executions.

(** ** Executions at concrete inputs *)

(** Every call returns: the logo launcher makes its four calls and hands
    back 0. *)
Example logo_nominal_run :
  run nominal (logo_main.main 1 ["logo"])
  = mkExecution
      [ EvAppendInittab "logo" "PyInit_angelos" (Returned 0);
        EvInitialize (Returned tt);
        EvStart (Returned 0);
        EvFinalize (Returned tt) ]
      (Some 0).
Proof. reflexivity. Qed.

(** The registration fails with -1: the angelos launcher makes the same
    four calls and hands back 0. *)
Example angelos_failing_registration_run :
  run failing_registration (angelos_main.main 2 ["angelos"; "--help"])
  = mkExecution
      [ EvAppendInittab "angelos" "PyInit_angelos" (Returned (-1));
        EvInitialize (Returned tt);
        EvStart (Returned 0);
        EvFinalize (Returned tt) ]
      (Some 0).
Proof. reflexivity. Qed.

(** The interpreter does not start: the process ends in the second call. *)
Example angelos_fatal_initialize_run :
  run fatal_initialize (angelos_main.main 1 ["angelos"])
  = mkExecution
      [ EvAppendInittab "angelos" "PyInit_angelos" (Returned 0);
        EvInitialize NoReturn ]
      None.
Proof. reflexivity. Qed.

(** [start] ends the process: the angelos launcher has made three calls, all
    on the main thread, and hands back nothing. *)
Example angelos_start_ends_process :
  run_process (behaviour (Returned 0) (Returned tt) (@NoReturn Z) (Returned tt))
              (angelos_main.main 1 ["angelos"])
  = ([ (main_thread, EvAppendInittab "angelos" "PyInit_angelos" (Returned 0));
       (main_thread, EvInitialize (Returned tt));
       (main_thread, EvStart NoReturn) ],
     None).
Proof. reflexivity. Qed.

Lemma registration_precedes_initialization_witness :
  ops (trace (run nominal (main_of angelos 1 ["angelos"])))
  = [OpAppendInittab "angelos" "PyInit_angelos"]
      ++ OpInitialize :: [OpStart; OpFinalize] /\
  existsb is_registration [OpAppendInittab "angelos" "PyInit_angelos"] = true /\
  existsb is_registration [OpStart; OpFinalize] = false.
Proof.
  split; [reflexivity|].
  apply (proj2 (registration_precedes_initialization nominal angelos 1 ["angelos"])).
  reflexivity.
Defined.

Lemma finalization_once_after_start_witness :
  In (EvStart (Returned 0)) (trace (run nominal (main_of logo 1 ["logo"]))) /\
  calls_of OpFinalize (trace (run nominal (main_of logo 1 ["logo"]))) = 1%nat.
Proof.
  assert (H : In (EvStart (Returned 0))
                 (trace (run nominal (main_of logo 1 ["logo"]))))
    by (simpl; auto).
  split; [exact H|].
  exact (proj1 (proj1 (finalization_once_after_start nominal logo 1 ["logo"]) 0 H)).
Defined.

Lemma normal_run_witness :
  ops (trace (run nominal (main_of logo 1 ["logo"])))
  = [OpAppendInittab "logo" "PyInit_angelos"; OpInitialize; OpStart; OpFinalize] /\
  calls_of OpStart (trace (run nominal (main_of logo 1 ["logo"]))) = 1%nat /\
  exit_status (run nominal (main_of logo 1 ["logo"])) = Some 0.
Proof.
  apply (normal_run nominal logo 1 ["logo"] 0); simpl; auto.
Defined.

Lemma failed_start_is_finalized_and_exits_zero_witness :
  In (EvStart (Returned (-1)))
     (trace (run failing_start (main_of angelos 1 ["angelos"]))) /\
  calls_of OpFinalize (trace (run failing_start (main_of angelos 1 ["angelos"])))
  = 1%nat /\
  exit_status (run failing_start (main_of angelos 1 ["angelos"])) = Some 0.
Proof.
  assert (H : In (EvStart (Returned (-1)))
                 (trace (run failing_start (main_of angelos 1 ["angelos"]))))
    by (simpl; auto).
  destruct (failed_start_is_finalized_and_exits_zero
              failing_start angelos 1 ["angelos"] (-1) H)
    as (_ & Hc & _ & Hz).
  split; [exact H|]. split; [exact Hc|].
  apply Hz; simpl; auto.
Defined.

Lemma initialization_follows_registration_witness :
  In (EvAppendInittab "logo" "PyInit_angelos" (Returned (-1)))
     (trace (run failing_registration (main_of logo 1 ["logo"]))) /\
  exists rest,
    ops (trace (run failing_registration (main_of logo 1 ["logo"])))
    = OpAppendInittab "logo" "PyInit_angelos" :: OpInitialize :: rest.
Proof.
  assert (H : In (EvAppendInittab "logo" "PyInit_angelos" (Returned (-1)))
                 (trace (run failing_registration (main_of logo 1 ["logo"]))))
    by (simpl; auto).
  split; [exact H|].
  exact (initialization_follows_registration
           failing_registration logo 1 ["logo"] "logo" "PyInit_angelos" (-1) H).
Defined.

Lemma start_once_synchronously_on_main_thread_witness :
  In (EvInitialize (Returned tt))
     (trace (run nominal (main_of angelos 1 ["angelos"]))) /\
  calls_of OpStart (trace (run nominal (main_of angelos 1 ["angelos"]))) = 1%nat /\
  exists o, In (main_thread, EvStart o)
               (fst (run_process nominal (main_of angelos 1 ["angelos"]))).
Proof.
  assert (H : In (EvInitialize (Returned tt))
                 (trace (run nominal (main_of angelos 1 ["angelos"]))))
    by (simpl; auto).
  destruct (start_once_synchronously_on_main_thread
              nominal angelos 1 ["angelos"] H)
    as (Hc & _ & _ & _ & _ & Hm & _).
  split; [exact H|]. split; [exact Hc | exact Hm].
Defined.

Lemma start_result_is_discarded_witness :
  ops (after_start (trace (run nominal (main_of angelos 1 ["angelos"]))))
  = [OpFinalize] /\
  ops (after_start (trace (run failing_start (main_of angelos 1 ["angelos"]))))
  = [OpFinalize] /\
  exit_status (run nominal (main_of angelos 1 ["angelos"]))
  = exit_status (run failing_start (main_of angelos 1 ["angelos"])).
Proof.
  destruct (start_result_is_discarded
              nominal failing_start angelos 1 ["angelos"] 0 (-1))
    as (H1 & H2 & He & _); [simpl; auto | simpl; auto |].
  split; [exact H1|]. split; [exact H2|].
  apply He; reflexivity.
Defined.

(** C2 as stated fails: [start] returns the failure value -1 to the angelos
    launcher, and the exit status is 0. *)
Lemma exit_status_hides_failed_start :
  ~ (forall (rt : runtime Z) v argc argv r,
        r <> 0 ->
        In (EvStart (Returned r)) (trace (run rt (main_of v argc argv))) ->
        In OpFinalize (ops (trace (run rt (main_of v argc argv)))) /\
        exit_status (run rt (main_of v argc argv)) <> Some 0).
Proof.
  intros C.
  destruct (C failing_start angelos 1 ["angelos"] (-1)) as [_ N].
  - lia.
  - simpl; auto.
  - apply N; reflexivity.
Qed.

(** C6 as stated fails: the registration returns -1 to the logo launcher,
    and the launcher goes on to initialise the interpreter. *)
Lemma failed_registration_is_not_fatal :
  ~ (forall (rt : runtime Z) v argc argv name initfunc,
        In (EvAppendInittab name initfunc (Returned (-1)))
           (trace (run rt (main_of v argc argv))) ->
        ~ In OpInitialize (ops (trace (run rt (main_of v argc argv))))).
Proof.
  intros C.
  apply (C failing_registration logo 1 ["logo"] "logo" "PyInit_angelos");
    simpl; auto.
Qed.

(** C7 as stated fails: when the initialization ends the process, [start]
    is not called at all. *)
Lemma start_not_called_after_fatal_initialize :
  ~ (forall (rt : runtime Z) v argc argv,
        calls_of OpStart (trace (run rt (main_of v argc argv))) = 1%nat).
Proof.
  intros C.
  specialize (C fatal_initialize angelos 1 ["angelos"]).
  discriminate C.
Qed.

(** ** The two files side by side *)

(** C1: the token sequences of the two files differ at two positions, the
    included header and the module name of the registration, and nowhere
    else.  The initializer is therefore the same identifier in both,
    [PyInit_angelos]: the angelos launcher registers the initializer that
    belongs to its module name, the logo launcher registers under "logo" an
    initializer that is not the one of "logo". *)
Theorem logo_registers_initializer_of_angelos :
  diff angelos_main.tokens logo_main.tokens
  = [ (1%nat, Some (Include_loc "angelos_entrypoint.h"),
              Some (Include_loc "logo_entrypoint.h"));
      (17%nat, Some (Str "angelos"), Some (Str "logo")) ] /\
  registration angelos_main.tokens
  = Some ("angelos", own_initializer "angelos") /\
  registration logo_main.tokens = Some ("logo", "PyInit_angelos") /\
  "PyInit_angelos" <> own_initializer "logo" /\
  hd_error (ops (trace (run nominal (logo_main.main 1 ["logo"]))))
  = Some (OpAppendInittab "logo" "PyInit_angelos").
Proof.
  repeat split; try reflexivity.
  discriminate.
Qed.

(** ** The bodies of the two functions, token by token *)


(** X7: in both files [main] declares [argc] and [argv] and its body uses
    neither; the body holds no keyword either, hence no [return] and no
    branch or loop. *)
Theorem body_is_calls_only (v : variant) :
  mentions "argc" (tokens_of v) = true /\
  mentions "argv" (tokens_of v) = true /\
  mentions "argc" (body (tokens_of v)) = false /\
  mentions "argv" (body (tokens_of v)) = false /\
  existsb is_keyword (body (tokens_of v)) = false.
Proof. destruct v; repeat split; reflexivity. Qed.

(** The check for the closing semicolon on a body that has them all, with a
    call nested in an argument list. *)
Example unterminated_none :
  unterminated [ Id "f"; Punct "("; Id "g"; Punct "("; Punct ")"; Punct ")";
                 Punct ";"; Id "h"; Punct "("; Punct ")"; Punct ";" ] = [].
Proof. reflexivity. Qed.

Lemma returned_values_do_not_steer_witness :
  ops (trace (run nominal (main_of logo 1 ["logo"])))
  = ops (trace (run (behaviour (Returned (-1)) (Returned tt)
                               (Returned 7) (Returned tt))
                    (main_of logo 1 ["logo"]))) /\
  exit_status (run nominal (main_of logo 1 ["logo"]))
  = exit_status (run (behaviour (Returned (-1)) (Returned tt)
                                (Returned 7) (Returned tt))
                     (main_of logo 1 ["logo"])).
Proof.
  apply (returned_values_do_not_steer logo 1 ["logo"]
           (Returned 0) (Returned (-1)) (Returned tt) (Returned tt)
           (Returned 0) (Returned 7) (Returned tt) (Returned tt));
    reflexivity.
Defined.
